(** * geo-mcp-server: the geocoding gateway of [src/server.ts]

    A shallow embedding of the gateway: the upstream call made by
    [handleGeocodingRequest], the two transport adapters built on it (the
    [POST /geocode] route and the [geocoding-request] socket event) and the
    [GET /health] route.

    Conventions of the model.
    - A JavaScript string is its sequence of UTF-16 code units, each a [Z].
    - A value that travels as JSON is a [Json]; a JavaScript object is the
      list of its own properties.  A possibly-missing value is an [option],
      [None] being JavaScript's [undefined].
    - The body of a [POST /geocode] request is the object (or array) that
      [express.json()] hands over; the route reads its [text] and [k], which
      may be any JSON value or missing.  The payload of a socket event may be
      missing altogether.
    - The upstream request URL is the string handed to [axios.get].
    - The handlers run in a small state-and-exception monad over a [World]
      that records what the process did: the upstream requests issued, the
      lines written with [console.error], the HTTP responses sent and the
      socket events emitted.  One handler invocation is run to completion;
      interleaving of several invocations is not modelled. *)

From Stdlib Require Import ZArith List String Ascii Bool Lia DecimalString.
Import ListNotations.
Local Open Scope Z_scope.
Set Warnings "-register-all".

(** ** JavaScript strings and the builtins the source uses *)

Module Js.

Definition JsString := list Z.

(** A source-code literal: every character of the source's string literals
    is ASCII, so each one is a single code unit. *)
Definition lit (s : string) : JsString :=
  map (fun a => Z.of_N (N_of_ascii a)) (list_ascii_of_string s).

(** [ToBoolean] on a string: only the empty string is falsy. *)
Definition truthy_string (s : JsString) : bool :=
  match s with
  | [] => false
  | _ :: _ => true
  end.

Definition in_range (lo hi c : Z) : bool := (lo <=? c) && (c <=? hi).

Definition is_alpha (c : Z) : bool := in_range 65 90 c || in_range 97 122 c.
Definition is_digit (c : Z) : bool := in_range 48 57 c.

(** The marks that [encodeURIComponent] leaves alone: [- _ . ! ~ * ' ( )]. *)
Definition is_mark (c : Z) : bool :=
  existsb (Z.eqb c) [45; 95; 46; 33; 126; 42; 39; 40; 41].

Definition unescaped (c : Z) : bool := is_alpha c || is_digit c || is_mark c.

Definition is_leading_surrogate (c : Z) : bool := in_range 55296 56319 c.
Definition is_trailing_surrogate (c : Z) : bool := in_range 56320 57343 c.

(** [UTF16SurrogatePairToCodePoint]. *)
Definition surrogate_pair_to_code_point (lead trail : Z) : Z :=
  (lead - 55296) * 1024 + (trail - 56320) + 65536.

(** The UTF-8 octets of a code point. *)
Definition utf8 (cp : Z) : list Z :=
  if cp <? 128 then [cp]
  else if cp <? 2048 then
    [Z.lor 192 (Z.shiftr cp 6); Z.lor 128 (Z.land cp 63)]
  else if cp <? 65536 then
    [Z.lor 224 (Z.shiftr cp 12);
     Z.lor 128 (Z.land (Z.shiftr cp 6) 63);
     Z.lor 128 (Z.land cp 63)]
  else
    [Z.lor 240 (Z.shiftr cp 18);
     Z.lor 128 (Z.land (Z.shiftr cp 12) 63);
     Z.lor 128 (Z.land (Z.shiftr cp 6) 63);
     Z.lor 128 (Z.land cp 63)].

(** One uppercase hexadecimal digit, for a value below sixteen. *)
Definition hex_digit (d : Z) : Z := if d <? 10 then 48 + d else 55 + d.

(** ["%XX"] for one octet. *)
Definition percent (octet : Z) : JsString :=
  [37; hex_digit (Z.land (Z.shiftr octet 4) 15); hex_digit (Z.land octet 15)].

Definition percent_utf8 (cp : Z) : JsString := flat_map percent (utf8 cp).

(** ECMAScript's [Encode], the second step of [encodeURIComponent]:
    unescaped code units are copied, every other code point is written as
    the percent-escapes of its UTF-8 octets, and an unpaired surrogate raises
    [URIError], here [None]. *)
Fixpoint encode (s : JsString) : option JsString :=
  match s with
  | [] => Some []
  | c :: rest =>
      if unescaped c then option_map (cons c) (encode rest)
      else if is_leading_surrogate c then
        match rest with
        | d :: rest' =>
            if is_trailing_surrogate d then
              option_map
                (app (percent_utf8 (surrogate_pair_to_code_point c d)))
                (encode rest')
            else None
        | [] => None
        end
      else if is_trailing_surrogate c then None
      else option_map (app (percent_utf8 c)) (encode rest)
  end.

(** The characters an encoded component is made of. *)
Definition is_hex (c : Z) : bool := is_digit c || in_range 65 70 c.
Definition url_safe (c : Z) : bool := unescaped c || (c =? 37) || is_hex c.

(** [===] on two strings. *)
Fixpoint eqb (a b : JsString) : bool :=
  match a, b with
  | [], [] => true
  | x :: a', y :: b' => (x =? y) && eqb a' b'
  | _, _ => false
  end.

End Js.

Import Js.

(** ** Values, thrown values and completions *)

(** A value that is sent or received as JSON.  A number is kept as the
    string that [Number::toString] gives it (so [0] and [-0] are both "0"):
    the gateway only converts numbers to strings, tests them for truth and
    passes them on. *)
Inductive Json : Type :=
  | JNull
  | JBool (b : bool)
  | JNum (repr : JsString)
  | JStr (s : JsString)
  | JArr (items : list Json)
  | JObj (props : list (JsString * Json)).

(** [o[key]] on an object; [None] when [o] has no such property. *)
Definition prop (key : string) (o : Json) : option Json :=
  match o with
  | JObj props =>
      option_map snd (find (fun p => Js.eqb (fst p) (lit key)) props)
  | _ => None
  end.

(** What a [catch] clause can receive: an [Error] object, of which the
    source reads only [message], or any other value. *)
Inductive Thrown : Type :=
  | ErrorObject (message : JsString)
  | ThrownValue (v : Json).

(** [error instanceof Error ? error.message : fallback]. *)
Definition message_or (fallback : string) (error : Thrown) : JsString :=
  match error with
  | ErrorObject message => message
  | ThrownValue _ => lit fallback
  end.

(** How an evaluation ends: with a value, or by throwing. *)
Inductive Completion (A : Type) : Type :=
  | Returned (a : A)
  | Threw (error : Thrown).
Arguments Returned {A} a.
Arguments Threw {A} error.

(** A [TypeError] with the message V8 gives it. *)
Definition TypeError (message : string) : Thrown := ErrorObject (lit message).

(** The [URIError] that [encodeURIComponent] raises. *)
Definition URI_malformed : Thrown := ErrorObject (lit "URI malformed").

(** [ToBoolean]: [undefined], [null], [false], [0], [NaN] and the empty
    string are falsy, everything else is truthy. *)
Definition truthy (v : option Json) : bool :=
  match v with
  | None => false
  | Some JNull => false
  | Some (JBool b) => b
  | Some (JNum repr) =>
      negb (Js.eqb repr (lit "0") || Js.eqb repr (lit "NaN"))
  | Some (JStr s) => truthy_string s
  | Some (JArr _) => true
  | Some (JObj _) => true
  end.

Definition has_own (key : string) (props : list (JsString * Json)) : bool :=
  existsb (fun p => Js.eqb (fst p) (lit key)) props.

(** [ToString] on a JSON value.  An array is joined with commas, a [null]
    element giving the empty string.  A plain object gives
    "[object Object]" through [Object.prototype.toString], unless an own
    property [toString] hides that method: the property of a JSON object is
    never callable, and the conversion raises [TypeError]. *)
Fixpoint ToString_value (v : Json) : Completion JsString :=
  match v with
  | JNull => Returned (lit "null")
  | JBool true => Returned (lit "true")
  | JBool false => Returned (lit "false")
  | JNum repr => Returned repr
  | JStr s => Returned s
  | JArr items =>
      (fix join (l : list Json) : Completion JsString :=
         match l with
         | [] => Returned []
         | x :: rest =>
             match
               match x with
               | JNull => Returned []
               | _ => ToString_value x
               end
             with
             | Threw error => Threw error
             | Returned s =>
                 match rest with
                 | [] => Returned s
                 | _ :: _ =>
                     match join rest with
                     | Threw error => Threw error
                     | Returned t => Returned (s ++ 44 :: t)
                     end
                 end
             end
         end) items
  | JObj props =>
      if has_own "toString" props
      then Threw (TypeError "Cannot convert object to primitive value")
      else Returned (lit "[object Object]")
  end.

(** [ToString] on a possibly-missing value. *)
Definition ToString (v : option Json) : Completion JsString :=
  match v with
  | None => Returned (lit "undefined")
  | Some j => ToString_value j
  end.

(** [encodeURIComponent(v)]: [ToString], then [Encode]. *)
Definition encodeURIComponent (v : option Json) : Completion JsString :=
  match ToString v with
  | Threw error => Threw error
  | Returned s =>
      match encode s with
      | Some encoded => Returned encoded
      | None => Threw URI_malformed
      end
  end.

(** ** The upstream service as seen through [axios.get]

    [axios] is a dependency of the gateway, not part of it.  Its default
    behaviour is modelled here: a transport failure rejects, a status outside
    200..299 rejects ([validateStatus]), and the body of an accepted reply is
    parsed as JSON when it parses and handed over as the raw string when it
    does not (the default [transitional.silentJSONParsing]). *)

Module Axios.

Inductive ReplyBody : Type :=
  | JsonText (value : Json)       (* the body is the JSON text of [value] *)
  | Malformed (raw : JsString).   (* the body [raw] is not JSON text *)

Inductive UpstreamBehavior : Type :=
  | ConnectionRefused (detail : JsString)
  | TimedOut (detail : JsString)
  | HttpReply (status : Z) (body : ReplyBody).

Inductive Outcome : Type :=
  | Resolved (data : Json)        (* [response.data] *)
  | Rejected (error : Thrown).

Definition validateStatus (status : Z) : bool :=
  (200 <=? status) && (status <? 300).

Definition transformResponse (body : ReplyBody) : Json :=
  match body with
  | JsonText value => value
  | Malformed raw => JStr raw
  end.

Definition status_message (status : Z) : JsString :=
  lit ("Request failed with status code "
         ++ NilZero.string_of_int (Z.to_int status)).

Definition get (b : UpstreamBehavior) : Outcome :=
  match b with
  | ConnectionRefused detail => Rejected (ErrorObject detail)
  | TimedOut detail => Rejected (ErrorObject detail)
  | HttpReply status body =>
      if validateStatus status then Resolved (transformResponse body)
      else Rejected (ErrorObject (status_message status))
  end.

(** The failures of the upstream call: no connection, no answer in time, or
    an answer whose status is not 2xx. *)
Definition is_failure (b : UpstreamBehavior) : bool :=
  match b with
  | ConnectionRefused _ => true
  | TimedOut _ => true
  | HttpReply status _ => negb (validateStatus status)
  end.

End Axios.

(** ** What the process does: the world and the handler monad *)

Inductive Method : Type := GET | POST.

Record World : Type := mkWorld {
  upstream_calls : list (Method * JsString);  (* requests sent upstream *)
  console : list (string * Thrown);           (* [console.error] lines *)
  http_out : list (Z * Json);                 (* [res.status(c).json(b)] *)
  socket_out : list (string * Json)           (* [socket.emit(event, b)] *)
}.

Definition empty_world : World := mkWorld [] [] [] [].

Definition M (A : Type) : Type := World -> Completion A * World.

Definition ret {A} (a : A) : M A := fun w => (Returned a, w).

Definition throw {A} (error : Thrown) : M A := fun w => (Threw error, w).

(** An evaluation that touches nothing of the world. *)
Definition pure {A} (c : Completion A) : M A := fun w => (c, w).

Definition bind {A B} (m : M A) (f : A -> M B) : M B :=
  fun w =>
    match m w with
    | (Returned a, w') => f a w'
    | (Threw error, w') => (Threw error, w')
    end.

(** [try { body } catch (error) { handler }]. *)
Definition try_catch {A} (body : M A) (handler : Thrown -> M A) : M A :=
  fun w =>
    match body w with
    | (Returned a, w') => (Returned a, w')
    | (Threw error, w') => handler error w'
    end.

Declare Scope js_scope.
Delimit Scope js_scope with js.
Notation "x <- m ;; f" := (bind m (fun x => f))
  (at level 61, m at next level, right associativity) : js_scope.
Notation "m ;; f" := (bind m (fun _ => f))
  (at level 61, right associativity) : js_scope.
Local Open Scope js_scope.

Definition sent_upstream (method : Method) (url : JsString) (w : World) : World :=
  mkWorld (upstream_calls w ++ [(method, url)]) (console w) (http_out w)
          (socket_out w).

Definition logged (label : string) (error : Thrown) (w : World) : World :=
  mkWorld (upstream_calls w) (console w ++ [(label, error)]) (http_out w)
          (socket_out w).

Definition responded (code : Z) (body : Json) (w : World) : World :=
  mkWorld (upstream_calls w) (console w) (http_out w ++ [(code, body)])
          (socket_out w).

Definition emitted (event : string) (payload : Json) (w : World) : World :=
  mkWorld (upstream_calls w) (console w) (http_out w)
          (socket_out w ++ [(event, payload)]).

(** [console.error(label, error)]. *)
Definition console_error (label : string) (error : Thrown) : M unit :=
  fun w => (Returned tt, logged label error w).

(** [res.status(code).json(body)]. *)
Definition res_status_json (code : Z) (body : Json) : M unit :=
  fun w => (Returned tt, responded code body w).

(** [socket.emit(event, payload)]. *)
Definition socket_emit (event : string) (payload : Json) : M unit :=
  fun w => (Returned tt, emitted event payload w).


(** What a handler reads of a request: the [text] and [k] properties of the
    body of a [POST /geocode] request or of the payload of a
    [geocoding-request] event.  Each may be missing or be any JSON value. *)
Record GeocodeQuery : Type := mkQuery {
  text : option Json;
  k : option Json
}.

(** The payload [data] of a [geocoding-request] event: nothing, [null], or a
    value whose properties can be read.  (A string, number, boolean or array
    has neither a [text] nor a [k] property: it is [Fields] with both
    missing.) *)
Inductive Payload : Type :=
  | Undefined
  | Null
  | Fields (q : GeocodeQuery).

(** [data.text]. *)
Definition data_text (data : Payload) : Completion (option Json) :=
  match data with
  | Undefined =>
      Threw (TypeError "Cannot read properties of undefined (reading 'text')")
  | Null =>
      Threw (TypeError "Cannot read properties of null (reading 'text')")
  | Fields q => Returned (text q)
  end.

(** [data.k]. *)
Definition data_k (data : Payload) : Completion (option Json) :=
  match data with
  | Undefined =>
      Threw (TypeError "Cannot read properties of undefined (reading 'k')")
  | Null =>
      Threw (TypeError "Cannot read properties of null (reading 'k')")
  | Fields q => Returned (k q)
  end.

Definition FAILED : JsString :=
  lit "Failed to communicate with geocoding service".

Definition TEXT_REQUIRED : JsString := lit "Text query is required".

(** [{ results: data, status: 'success' }]. *)
Definition success_envelope (data : Json) : Json :=
  JObj [(lit "results", data); (lit "status", JStr (lit "success"))].

(** [{ status: 'error', message: message }]. *)
Definition error_envelope (message : JsString) : Json :=
  JObj [(lit "status", JStr (lit "error")); (lit "message", JStr message)].

(** The envelope invariant of a [GeocodeResponse]: [status] is ['success']
    with [results] and without [message], or ['error'] with [message] and
    without [results]. *)
Definition is_some {A} (o : option A) : bool :=
  match o with Some _ => true | None => false end.

Definition envelope_invariant (payload : Json) : bool :=
  match prop "status" payload with
  | Some (JStr s) =>
      if Js.eqb s (lit "success") then
        is_some (prop "results" payload) && negb (is_some (prop "message" payload))
      else if Js.eqb s (lit "error") then
        is_some (prop "message" payload) && negb (is_some (prop "results" payload))
      else false
  | _ => false
  end.

(** ** Scenarios used to run the model *)

Definition refusing (_ : JsString) : Axios.UpstreamBehavior :=
  Axios.ConnectionRefused (lit "connect ECONNREFUSED 127.0.0.1:5008").

Definition answering_html (_ : JsString) : Axios.UpstreamBehavior :=
  Axios.HttpReply 200 (Axios.Malformed (lit "<html>Bad gateway</html>")).

Definition paris_result : Json :=
  JArr [JObj [(lit "display_name", JStr (lit "Paris, France"));
              (lit "confidence", JArr [JNum (lit "0.9")]);
              (lit "boundingboxes", JArr []);
              (lit "levels_polygons", JArr [])]].

Definition answering_paris (_ : JsString) : Axios.UpstreamBehavior :=
  Axios.HttpReply 200 (Axios.JsonText paris_result).

Definition answering_500 (_ : JsString) : Axios.UpstreamBehavior :=
  Axios.HttpReply 500 (Axios.JsonText (JObj [(lit "detail", JStr (lit "db down"))])).

Definition Paris : option Json := Some (JStr (lit "Paris")).

Definition paris : GeocodeQuery := mkQuery Paris None.

Definition paris_with_empty_k : GeocodeQuery := mkQuery Paris (Some (JStr [])).

Definition paris_with_zero_k : GeocodeQuery :=
  mkQuery Paris (Some (JNum (lit "0"))).

Definition paris_url : JsString :=
  lit "http://localhost:5008/geocoding?text=Paris".

Definition no_text : GeocodeQuery := mkQuery None (Some (JStr (lit "3"))).

Definition zero_text : GeocodeQuery := mkQuery (Some (JNum (lit "0"))) None.

Definition lone_surrogate : GeocodeQuery :=
  mkQuery (Some (JStr [97; 55296])) None.

(** ** Notions used to state the properties *)

(** A string is a sequence of 16-bit code units. *)
Definition code_units (s : JsString) : Prop :=
  Forall (fun c => 0 <= c < 65536) s.

(** [String.prototype.isWellFormed]: no surrogate is left unpaired. *)
Fixpoint isWellFormed (s : JsString) : bool :=
  match s with
  | [] => true
  | c :: rest =>
      if is_leading_surrogate c then
        match rest with
        | d :: rest' => is_trailing_surrogate d && isWellFormed rest'
        | [] => false
        end
      else negb (is_trailing_surrogate c) && isWellFormed rest
  end.

(** The falsy values that JSON can carry, and [undefined]. *)
Definition falsy_values : list (option Json) :=
  [None; Some JNull; Some (JBool false); Some (JNum (lit "0"));
   Some (JNum (lit "NaN")); Some (JStr [])].

(** What a run added to the world, put after what was there. *)
Definition world_app (w added : World) : World :=
  mkWorld (upstream_calls w ++ upstream_calls added)
          (console w ++ console added)
          (http_out w ++ http_out added)
          (socket_out w ++ socket_out added).

(** ** The gateway *)

Section Gateway.

(** The configuration read at startup and the behaviour of the upstream
    service, request by request. *)
Variable env_GEOCODING_SERVICE_URL : option JsString.
Variable upstream : JsString -> Axios.UpstreamBehavior.

(** [process.env.GEOCODING_SERVICE_URL || 'http://localhost:5008']: an
    environment variable is a string or is not set. *)
Definition GEOCODING_SERVICE_URL : JsString :=
  match env_GEOCODING_SERVICE_URL with
  | Some value =>
      if truthy_string value then value else lit "http://localhost:5008"
  | None => lit "http://localhost:5008"
  end.

(** [k ? `&k=${k}` : ''] *)
Definition k_parameter (k : option Json) : Completion JsString :=
  if truthy k then
    match ToString k with
    | Returned s => Returned (lit "&k=" ++ s)
    | Threw error => Threw error
    end
  else Returned [].

(** The template literal of line 64, evaluated left to right. *)
Definition geocoding_url (text k : option Json) : Completion JsString :=
  match encodeURIComponent text with
  | Returned encoded =>
      match k_parameter k with
      | Returned parameter =>
          Returned (GEOCODING_SERVICE_URL ++ lit "/geocoding?text=" ++ encoded
                      ++ parameter)
      | Threw error => Threw error
      end
  | Threw error => Threw error
  end.

(** [await axios.get(url)], giving [response.data]. *)
Definition axios_get (url : JsString) : M Json :=
  fun w =>
    match Axios.get (upstream url) with
    | Axios.Resolved data => (Returned data, sent_upstream GET url w)
    | Axios.Rejected error => (Threw error, sent_upstream GET url w)
    end.

Definition handleGeocodingRequest (text k : option Json) : M Json :=
  try_catch
    (url <- pure (geocoding_url text k) ;;
     data <- axios_get url ;;
     ret (success_envelope data))
    (fun error =>
       console_error "Error calling geocoding service:" error ;;
       throw (ErrorObject FAILED)).

(** The listener of the [geocoding-request] socket event. *)
Definition on_geocoding_request (data : Payload) : M unit :=
  try_catch
    (text <- pure (data_text data) ;;
     k <- pure (data_k data) ;;
     response <- handleGeocodingRequest text k ;;
     socket_emit "geocoding-response" response)
    (fun error =>
       console_error "Error handling geocoding request:" error ;;
       socket_emit "geocoding-response"
         (error_envelope (message_or "Unknown error occurred" error))).

(** [app.get('/health', ...)]. *)
Definition get_health : M unit :=
  res_status_json 200 (JObj [(lit "status", JStr (lit "healthy"))]).

(** [app.post('/geocode', ...)], on the [text] and [k] of the request
    body. *)
Definition post_geocode (body : GeocodeQuery) : M unit :=
  try_catch
    (if negb (truthy (text body)) then
       res_status_json 400 (error_envelope TEXT_REQUIRED)
     else
       response <- handleGeocodingRequest (text body) (k body) ;;
       res_status_json 200 response)
    (fun error =>
       res_status_json 500
         (error_envelope (message_or "Internal server error" error))).

(** ** Facts about the builtins *)

Ltac to_prop :=
  repeat first
    [ rewrite orb_true_iff | rewrite andb_true_iff
    | rewrite Z.leb_le | rewrite Z.ltb_lt | rewrite Z.eqb_eq ].

Lemma hex_digit_is_hex (x : Z) : is_hex (hex_digit (Z.land x 15)) = true.
Proof.
  change 15 with (Z.ones 4). rewrite Z.land_ones by lia.
  pose proof (Z.mod_pos_bound x (2 ^ 4) ltac:(lia)) as Hm.
  unfold hex_digit, is_hex, is_digit, in_range.
  destruct (x mod 2 ^ 4 <? 10) eqn:E; to_prop.
  - apply Z.ltb_lt in E. lia.
  - apply Z.ltb_ge in E. lia.
Qed.

Lemma hex_is_url_safe (c : Z) : is_hex c = true -> url_safe c = true.
Proof. unfold url_safe. intros ->. apply orb_true_r. Qed.

Lemma percent_url_safe (octet : Z) : forallb url_safe (percent octet) = true.
Proof.
  unfold percent. cbn [forallb].
  rewrite (hex_is_url_safe _ (hex_digit_is_hex (Z.shiftr octet 4))).
  rewrite (hex_is_url_safe _ (hex_digit_is_hex octet)).
  reflexivity.
Qed.

Lemma flat_percent_url_safe (octets : list Z) :
  forallb url_safe (flat_map percent octets) = true.
Proof.
  induction octets as [|o octets IH]; [reflexivity|].
  cbn [flat_map]. rewrite forallb_app, percent_url_safe, IH. reflexivity.
Qed.

Lemma encode_cons (c : Z) (rest : JsString) :
  encode (c :: rest) =
  if unescaped c then option_map (cons c) (encode rest)
  else if is_leading_surrogate c then
    match rest with
    | d :: rest' =>
        if is_trailing_surrogate d then
          option_map (app (percent_utf8 (surrogate_pair_to_code_point c d)))
                     (encode rest')
        else None
    | [] => None
    end
  else if is_trailing_surrogate c then None
  else option_map (app (percent_utf8 c)) (encode rest).
Proof. reflexivity. Qed.

Lemma encode_url_safe_two (s : JsString) :
  (forall enc, encode s = Some enc -> forallb url_safe enc = true) /\
  (forall c enc, encode (c :: s) = Some enc -> forallb url_safe enc = true).
Proof.
  induction s as [|d rest [IH0 IH1]].
  - split; [intros enc [= <-]; reflexivity|].
    intros c enc. cbn [encode option_map].
    destruct (unescaped c) eqn:U.
    + intros [= <-]. cbn. unfold url_safe. rewrite U. reflexivity.
    + destruct (is_leading_surrogate c); [discriminate|].
      destruct (is_trailing_surrogate c); [discriminate|].
      intros [= <-]. rewrite app_nil_r. apply flat_percent_url_safe.
  - assert (Hd : forall enc, encode (d :: rest) = Some enc ->
                             forallb url_safe enc = true) by apply IH1.
    split; [exact Hd|].
    intros c enc. rewrite encode_cons.
    destruct (unescaped c) eqn:U.
    + destruct (encode (d :: rest)) as [e|] eqn:E; [|discriminate].
      intros [= <-]. cbn [forallb]. unfold url_safe at 1. rewrite U.
      cbn [orb andb]. exact (Hd e eq_refl).
    + destruct (is_leading_surrogate c).
      * destruct (is_trailing_surrogate d); [|discriminate].
        destruct (encode rest) as [e|] eqn:E; [|discriminate].
        intros [= <-]. rewrite forallb_app.
        unfold percent_utf8. rewrite flat_percent_url_safe. exact (IH0 e eq_refl).
      * destruct (is_trailing_surrogate c); [discriminate|].
        destruct (encode (d :: rest)) as [e|] eqn:E; [|discriminate].
        intros [= <-]. rewrite forallb_app.
        unfold percent_utf8. rewrite flat_percent_url_safe. exact (Hd e eq_refl).
Qed.

Lemma eqb_eq (a b : JsString) : Js.eqb a b = true <-> a = b.
Proof.
  revert b. induction a as [|x a IH]; intros [|y b]; cbn;
    try (split; [discriminate|discriminate]); [split; reflexivity|].
  rewrite andb_true_iff, Z.eqb_eq, IH.
  split; [intros [-> ->]; reflexivity|intros [= -> ->]; auto].
Qed.

(** An encoded component is made of unescaped characters and ["%XX"]
    escapes only. *)
Lemma encodeURIComponent_url_safe (v : option Json) (enc : JsString) :
  encodeURIComponent v = Returned enc -> forallb url_safe enc = true.
Proof.
  unfold encodeURIComponent.
  destruct (ToString v) as [s|error]; [|discriminate].
  destruct (encode s) as [e|] eqn:E; [|discriminate].
  intros [= <-]. exact (proj1 (encode_url_safe_two s) e E).
Qed.

(** In particular it holds no ["&"], so it cannot start a parameter. *)
Lemma encodeURIComponent_no_ampersand (v : option Json) (enc : JsString) :
  encodeURIComponent v = Returned enc -> ~ In 38 enc.
Proof.
  intros H Hin. apply encodeURIComponent_url_safe in H.
  rewrite forallb_forall in H. specialize (H 38 Hin). discriminate.
Qed.

(** The falsy values are [undefined], [null], [false], [0], [NaN] and the
    empty string. *)
Lemma truthy_cases (v : option Json) :
  truthy v = false <-> In v falsy_values.
Proof.
  unfold falsy_values. cbn [In].
  destruct v as [[|[|]|repr|[|c s]|items|props]|]; cbn [truthy truthy_string];
    try (split; [intros _; tauto|reflexivity]);
    try (split; [discriminate|intros H; repeat destruct H as [H|H];
                             try discriminate H; try contradiction]).
  rewrite negb_false_iff, orb_true_iff, !eqb_eq. split.
  - intros [->| ->]; tauto.
  - intros H. repeat destruct H as [H|H]; try discriminate H;
      try contradiction; injection H as <-; auto.
Qed.

Lemma is_failure_rejects (b : Axios.UpstreamBehavior) :
  Axios.is_failure b = true -> exists cause, Axios.get b = Axios.Rejected cause.
Proof.
  destruct b as [d|d|status body]; cbn; intros H; eauto.
  apply negb_true_iff in H. rewrite H. eauto.
Qed.

Lemma envelope_invariant_success (data : Json) :
  envelope_invariant (success_envelope data) = true.
Proof. reflexivity. Qed.

Lemma envelope_invariant_error (message : JsString) :
  envelope_invariant (error_envelope message) = true.
Proof. reflexivity. Qed.

(** ** What the handlers do, path by path *)

Lemma handleGeocodingRequest_eq (text k : option Json) (w : World) :
  handleGeocodingRequest text k w =
  match geocoding_url text k with
  | Threw cause =>
      (Threw (ErrorObject FAILED),
       logged "Error calling geocoding service:" cause w)
  | Returned url =>
      match Axios.get (upstream url) with
      | Axios.Resolved data =>
          (Returned (success_envelope data), sent_upstream GET url w)
      | Axios.Rejected cause =>
          (Threw (ErrorObject FAILED),
           logged "Error calling geocoding service:" cause
                  (sent_upstream GET url w))
      end
  end.
Proof.
  unfold handleGeocodingRequest, try_catch, bind, pure, axios_get.
  destruct (geocoding_url text k) as [url|cause]; cbn; [|reflexivity].
  destruct (Axios.get (upstream url)); reflexivity.
Qed.

Lemma post_geocode_eq (q : GeocodeQuery) (w : World) :
  post_geocode q w =
  if truthy (text q) then
    match handleGeocodingRequest (text q) (k q) w with
    | (Returned response, w') => (Returned tt, responded 200 response w')
    | (Threw error, w') =>
        (Returned tt,
         responded 500
           (error_envelope (message_or "Internal server error" error)) w')
    end
  else (Returned tt, responded 400 (error_envelope TEXT_REQUIRED) w).
Proof.
  unfold post_geocode, try_catch, bind.
  destruct (truthy (text q)); cbn [negb]; [|reflexivity].
  destruct (handleGeocodingRequest (text q) (k q) w) as [[response|error] w'];
    reflexivity.
Qed.

Lemma on_geocoding_request_eq (q : GeocodeQuery) (w : World) :
  on_geocoding_request (Fields q) w =
  match handleGeocodingRequest (text q) (k q) w with
  | (Returned response, w') =>
      (Returned tt, emitted "geocoding-response" response w')
  | (Threw error, w') =>
      (Returned tt,
       emitted "geocoding-response"
         (error_envelope (message_or "Unknown error occurred" error))
         (logged "Error handling geocoding request:" error w'))
  end.
Proof.
  unfold on_geocoding_request, try_catch, bind, pure. cbn [data_text data_k].
  destruct (handleGeocodingRequest (text q) (k q) w) as [[response|error] w'];
    reflexivity.
Qed.

(** A payload that is [undefined] or [null]: reading [data.text] raises
    inside the [try], and the [catch] logs and emits the [TypeError]. *)
Lemma on_geocoding_request_without_payload (data : Payload) (w : World) :
  (data = Undefined \/ data = Null) ->
  exists message,
    data_text data = Threw (ErrorObject message) /\
    on_geocoding_request data w =
    (Returned tt,
     emitted "geocoding-response" (error_envelope message)
       (logged "Error handling geocoding request:" (ErrorObject message) w)).
Proof. intros [-> | ->]; eexists; split; reflexivity. Qed.

(** Every invocation of [handleGeocodingRequest] leaves a trace: a request
    sent upstream or a line on the console. *)
Lemma handleGeocodingRequest_leaves_a_trace (text k : option Json) (w : World) :
  let w' := snd (handleGeocodingRequest text k w) in
  (List.length (upstream_calls w) + List.length (console w)
     < List.length (upstream_calls w') + List.length (console w'))%nat.
Proof.
  rewrite handleGeocodingRequest_eq.
  destruct (geocoding_url text k) as [url|cause];
    [destruct (Axios.get (upstream url))|];
    cbn; rewrite ?List.length_app; cbn; lia.
Qed.

(** ** The claims *)

(** C1 (amended).  [handleGeocodingRequest] always completes, in one of two
    ways: it returns the envelope [{ results, status: 'success' }] when the
    URL could be built and the upstream call resolved, and otherwise (the
    upstream call was rejected, or no URL could be built) it throws an
    [Error] whose message is "Failed to communicate with geocoding service".
    It never returns an error envelope. *)
Theorem handleGeocodingRequest_returns_or_throws
    (text k : option Json) (w : World) :
  match fst (handleGeocodingRequest text k w) with
  | Returned response =>
      exists url data,
        geocoding_url text k = Returned url /\
        Axios.get (upstream url) = Axios.Resolved data /\
        response = success_envelope data
  | Threw error =>
      error = ErrorObject FAILED /\
      ((exists cause, geocoding_url text k = Threw cause) \/
       exists url cause,
         geocoding_url text k = Returned url /\
         Axios.get (upstream url) = Axios.Rejected cause)
  end.
Proof.
  rewrite handleGeocodingRequest_eq.
  destruct (geocoding_url text k) as [url|cause0] eqn:U; cbn.
  - destruct (Axios.get (upstream url)) as [data|cause] eqn:G; cbn.
    + exists url, data. auto.
    + split; [reflexivity|]. right. exists url, cause. auto.
  - split; [reflexivity|]. left. exists cause0. reflexivity.
Qed.

(** C2 (amended).  For every [POST /geocode] request with non-empty text
    whose upstream call fails, [handleGeocodingRequest] throws, and the route
    answers with status 500 and the envelope [{ status: 'error', message:
    'Failed to communicate with geocoding service' }]; the upstream was
    asked once. *)
Theorem post_geocode_upstream_failure
    (q : GeocodeQuery) (w : World) (url : JsString) :
  truthy (text q) = true ->
  geocoding_url (text q) (k q) = Returned url ->
  Axios.is_failure (upstream url) = true ->
  fst (handleGeocodingRequest (text q) (k q) w) = Threw (ErrorObject FAILED) /\
  http_out (snd (post_geocode q w)) =
    http_out w ++ [(500, error_envelope FAILED)] /\
  upstream_calls (snd (post_geocode q w)) = upstream_calls w ++ [(GET, url)].
Proof.
  intros Ht Hu Hf. destruct (is_failure_rejects _ Hf) as [cause Hc].
  rewrite post_geocode_eq, Ht, handleGeocodingRequest_eq, Hu, Hc.
  repeat split.
Qed.

(** C3.  For every upstream failure (no connection, timeout, non-2xx
    status), the payload the caller sees has status "error" and message
    exactly "Failed to communicate with geocoding service", and it is the
    same payload on the HTTP transport and on the realtime transport. *)
Theorem upstream_failure_payload
    (q : GeocodeQuery) (w : World) (url : JsString) :
  truthy (text q) = true ->
  geocoding_url (text q) (k q) = Returned url ->
  Axios.is_failure (upstream url) = true ->
  exists code payload,
    http_out (snd (post_geocode q w)) = http_out w ++ [(code, payload)] /\
    socket_out (snd (on_geocoding_request (Fields q) w)) =
      socket_out w ++ [("geocoding-response"%string, payload)] /\
    prop "status" payload = Some (JStr (lit "error")) /\
    prop "message" payload =
      Some (JStr (lit "Failed to communicate with geocoding service")).
Proof.
  intros Ht Hu Hf. destruct (is_failure_rejects _ Hf) as [cause Hc].
  exists 500, (error_envelope FAILED).
  rewrite post_geocode_eq, on_geocoding_request_eq, Ht,
    handleGeocodingRequest_eq, Hu, Hc.
  repeat split.
Qed.

(** C4.  For every non-empty text and the same successful upstream
    behaviour, the HTTP transport and the realtime transport deliver the same
    envelope [{ status: 'success', results }]: both go through
    [handleGeocodingRequest] with the same [(text, k)] and ask the upstream
    for the same URL. *)
Theorem transports_agree_on_success
    (q : GeocodeQuery) (w : World) (url : JsString) (data : Json) :
  truthy (text q) = true ->
  geocoding_url (text q) (k q) = Returned url ->
  Axios.get (upstream url) = Axios.Resolved data ->
  fst (handleGeocodingRequest (text q) (k q) w)
    = Returned (success_envelope data) /\
  http_out (snd (post_geocode q w))
    = http_out w ++ [(200, success_envelope data)] /\
  socket_out (snd (on_geocoding_request (Fields q) w))
    = socket_out w ++ [("geocoding-response"%string, success_envelope data)] /\
  upstream_calls (snd (post_geocode q w)) = upstream_calls w ++ [(GET, url)] /\
  upstream_calls (snd (on_geocoding_request (Fields q) w))
    = upstream_calls w ++ [(GET, url)] /\
  prop "status" (success_envelope data) = Some (JStr (lit "success")) /\
  prop "results" (success_envelope data) = Some data.
Proof.
  intros Ht Hu Hg.
  rewrite post_geocode_eq, on_geocoding_request_eq, Ht,
    handleGeocodingRequest_eq, Hu, Hg.
  repeat split.
Qed.

(** C5 (amended).  Once the URL is built the upstream is asked exactly once,
    with no retry.  A refused connection, a timeout and a non-2xx status make
    [handleGeocodingRequest] throw its [Error].  A 2xx reply is a success
    whatever its body: a body that is not JSON is not a failure, it is passed
    on as a string in [results]. *)
Theorem upstream_asked_once
    (text k : option Json) (w : World) (url : JsString) :
  geocoding_url text k = Returned url ->
  upstream_calls (snd (handleGeocodingRequest text k w))
    = upstream_calls w ++ [(GET, url)] /\
  fst (handleGeocodingRequest text k w) =
    match upstream url with
    | Axios.ConnectionRefused _ => Threw (ErrorObject FAILED)
    | Axios.TimedOut _ => Threw (ErrorObject FAILED)
    | Axios.HttpReply status (Axios.JsonText value) =>
        if Axios.validateStatus status
        then Returned (success_envelope value)
        else Threw (ErrorObject FAILED)
    | Axios.HttpReply status (Axios.Malformed raw) =>
        if Axios.validateStatus status
        then Returned (success_envelope (JStr raw))
        else Threw (ErrorObject FAILED)
    end.
Proof.
  intros Hu. rewrite handleGeocodingRequest_eq, Hu.
  destruct (upstream url) as [d|d|status [value|raw]]; cbn;
    try destruct (Axios.validateStatus status); cbn; split; reflexivity.
Qed.

(** C6.  For every [POST /geocode] request whose body has [text] absent or
    empty, the response is HTTP 400 with body [{ status: 'error', message:
    'Text query is required' }], nothing is sent upstream and nothing is
    logged: [handleGeocodingRequest], which always does one or the other, is
    not invoked. *)
Theorem post_geocode_text_required (q : GeocodeQuery) (w : World) :
  text q = None \/ text q = Some (JStr []) ->
  post_geocode q w =
    (Returned tt,
     responded 400
       (JObj [(lit "status", JStr (lit "error"));
              (lit "message", JStr (lit "Text query is required"))]) w) /\
  upstream_calls (snd (post_geocode q w)) = upstream_calls w /\
  console (snd (post_geocode q w)) = console w.
Proof.
  intros H.
  assert (Ht : truthy (text q) = false) by (destruct H as [-> | ->]; reflexivity).
  rewrite post_geocode_eq, Ht. repeat split.
Qed.

(** C7.  Every payload sent by the [POST /geocode] route or emitted by the
    [geocoding-request] listener satisfies the envelope invariant: status
    "success" with [results] present and [message] absent, or status "error"
    with [message] present and [results] absent.  This holds for every
    request body and for every event payload, a missing one included. *)
Theorem payloads_satisfy_envelope_invariant
    (q : GeocodeQuery) (data : Payload) (w : World) :
  (exists code payload,
     http_out (snd (post_geocode q w)) = http_out w ++ [(code, payload)] /\
     envelope_invariant payload = true) /\
  (exists payload,
     socket_out (snd (on_geocoding_request data w))
       = socket_out w ++ [("geocoding-response"%string, payload)] /\
     envelope_invariant payload = true).
Proof.
  split.
  - rewrite post_geocode_eq, handleGeocodingRequest_eq.
    destruct (truthy (text q)).
    + destruct (geocoding_url (text q) (k q)) as [url|cause0];
        [destruct (Axios.get (upstream url)) as [d|cause]|];
        cbn; eexists _, _; split; reflexivity.
    + cbn; eexists _, _; split; reflexivity.
  - destruct data as [| |q'].
    + eexists; split; reflexivity.
    + eexists; split; reflexivity.
    + rewrite on_geocoding_request_eq, handleGeocodingRequest_eq.
      destruct (geocoding_url (text q') (k q')) as [url|cause0];
        [destruct (Axios.get (upstream url)) as [d|cause]|];
        cbn; eexists; split; reflexivity.
Qed.

(** C8 (amended).  For every text that [encodeURIComponent] accepts and
    every optional k that converts to a string (any k but an object that
    hides [toString]), the upstream request is a GET to the configured base
    URL at path /geocoding with the encoded text as the [text] query
    parameter.  When k is truthy its string form is appended verbatim,
    unencoded, as the [k] query parameter; when k is omitted or falsy
    ([null], [false], [0], [NaN] or the empty string) nothing follows the
    encoded text, which itself holds no "&". *)
Theorem geocoding_url_shape
    (text k : option Json) (encoded value : JsString) :
  encodeURIComponent text = Returned encoded ->
  ToString k = Returned value ->
  exists url,
    url = GEOCODING_SERVICE_URL ++ lit "/geocoding?text=" ++ encoded
            ++ (if truthy k then lit "&k=" ++ value else []) /\
    geocoding_url text k = Returned url /\
    (forall w, upstream_calls (snd (handleGeocodingRequest text k w))
               = upstream_calls w ++ [(GET, url)]) /\
    (truthy k = false <-> In k falsy_values) /\
    forallb url_safe encoded = true /\
    ~ In 38 encoded.
Proof.
  intros He Hk. eexists. split; [reflexivity|].
  assert (Hu : geocoding_url text k =
               Returned (GEOCODING_SERVICE_URL ++ lit "/geocoding?text="
                           ++ encoded
                           ++ (if truthy k then lit "&k=" ++ value else []))).
  { unfold geocoding_url, k_parameter. rewrite He, Hk.
    destruct (truthy k); reflexivity. }
  split; [exact Hu|]. split.
  - intros w. rewrite handleGeocodingRequest_eq, Hu.
    destruct (Axios.get (upstream _)); reflexivity.
  - split; [apply truthy_cases|]. split.
    + exact (encodeURIComponent_url_safe _ _ He).
    + exact (encodeURIComponent_no_ampersand _ _ He).
Qed.

(** C10.  Supplying k as the empty string is the same as omitting it: for
    every text the URL built with [k = ""] is the URL built without k, and
    the whole call behaves the same. *)
Theorem empty_k_is_omitted (text : option Json) :
  geocoding_url text (Some (JStr [])) = geocoding_url text None /\
  k_parameter (Some (JStr [])) = Returned [] /\
  forall w, handleGeocodingRequest text (Some (JStr [])) w
            = handleGeocodingRequest text None w.
Proof.
  split; [reflexivity|]. split; [reflexivity|].
  intros w. rewrite !handleGeocodingRequest_eq. reflexivity.
Qed.

End Gateway.

(** C9.  [GET /health] always answers 200 with body [{ status: 'healthy' }]:
    the handler takes neither the configuration nor the upstream, sends
    nothing upstream and logs nothing. *)
Theorem get_health_is_unconditional (w : World) :
  get_health w =
    (Returned tt,
     responded 200 (JObj [(lit "status", JStr (lit "healthy"))]) w) /\
  http_out (snd (get_health w))
    = http_out w ++ [(200, JObj [(lit "status", JStr (lit "healthy"))])] /\
  upstream_calls (snd (get_health w)) = upstream_calls w /\
  console (snd (get_health w)) = console w.
Proof. repeat split. Qed.

(** ** The builtins on concrete values *)

Example encode_paris_france :
  encodeURIComponent (Some (JStr (lit "Paris, France")))
  = Returned (lit "Paris%2C%20France").
Proof. reflexivity. Qed.

Example encode_two_octets :
  encodeURIComponent (Some (JStr [233])) = Returned (lit "%C3%A9").
Proof. reflexivity. Qed.

Example encode_three_octets :
  encodeURIComponent (Some (JStr [8364])) = Returned (lit "%E2%82%AC").
Proof. reflexivity. Qed.

Example encode_surrogate_pair :
  encodeURIComponent (Some (JStr [55357; 56832]))
  = Returned (lit "%F0%9F%98%80").
Proof. reflexivity. Qed.

Example encode_ampersand :
  encodeURIComponent (Some (JStr (lit "a&k=9"))) = Returned (lit "a%26k%3D9").
Proof. reflexivity. Qed.

Example encode_lone_surrogate :
  encodeURIComponent (Some (JStr [55296])) = Threw URI_malformed.
Proof. reflexivity. Qed.

Example encode_undefined :
  encodeURIComponent None = Returned (lit "undefined").
Proof. reflexivity. Qed.

Example to_string_array :
  ToString (Some (JArr [JNum (lit "1"); JArr [JBool true; JNull];
                        JStr (lit "x")]))
  = Returned (lit "1,true,,x").
Proof. reflexivity. Qed.

Example to_string_object :
  ToString (Some (JObj [(lit "a", JNum (lit "1"))]))
  = Returned (lit "[object Object]").
Proof. reflexivity. Qed.

Example to_string_hidden :
  ToString (Some (JObj [(lit "toString", JNum (lit "1"))]))
  = Threw (TypeError "Cannot convert object to primitive value").
Proof. reflexivity. Qed.

Example default_base_url :
  GEOCODING_SERVICE_URL (Some []) = lit "http://localhost:5008".
Proof. reflexivity. Qed.

Example status_message_500 :
  Axios.status_message 500 = lit "Request failed with status code 500".
Proof. reflexivity. Qed.

(** ** The claims on concrete runs *)

(** C1, as stated, fails when the upstream refuses the connection: the call
    throws, so no envelope is returned. *)
Lemma refused_upstream_throws :
  handleGeocodingRequest None refusing Paris None empty_world
  = (Threw (ErrorObject FAILED),
     mkWorld [(GET, paris_url)]
             [("Error calling geocoding service:"%string,
               ErrorObject (lit "connect ECONNREFUSED 127.0.0.1:5008"))]
             [] []) /\
  forall envelope,
    fst (handleGeocodingRequest None refusing Paris None empty_world)
    <> Returned envelope.
Proof. split; [reflexivity|]. intros envelope. discriminate. Qed.

(** C2, as stated, fails on the same run: the response is a 500, not a
    200. *)
Lemma refused_upstream_is_http_500 :
  Axios.is_failure (refusing paris_url) = true /\
  http_out (snd (post_geocode None refusing paris empty_world))
  = [(500, error_envelope FAILED)] /\
  http_out (snd (post_geocode None refusing paris empty_world))
  <> [(200, error_envelope FAILED)].
Proof. split; [reflexivity|]. split; [reflexivity|]. discriminate. Qed.

Lemma post_geocode_upstream_failure_witness :
  truthy (text paris) = true /\
  geocoding_url None (text paris) (k paris) = Returned paris_url /\
  Axios.is_failure (refusing paris_url) = true /\
  fst (handleGeocodingRequest None refusing (text paris) (k paris) empty_world)
  = Threw (ErrorObject FAILED) /\
  http_out (snd (post_geocode None refusing paris empty_world))
  = http_out empty_world ++ [(500, error_envelope FAILED)] /\
  upstream_calls (snd (post_geocode None refusing paris empty_world))
  = upstream_calls empty_world ++ [(GET, paris_url)].
Proof.
  refine (conj eq_refl (conj eq_refl (conj eq_refl _))).
  apply (post_geocode_upstream_failure None refusing paris empty_world paris_url);
    reflexivity.
Defined.

Lemma upstream_failure_payload_witness :
  truthy (text paris) = true /\
  geocoding_url None (text paris) (k paris) = Returned paris_url /\
  Axios.is_failure (refusing paris_url) = true /\
  exists code payload,
    http_out (snd (post_geocode None refusing paris empty_world))
    = http_out empty_world ++ [(code, payload)] /\
    socket_out
      (snd (on_geocoding_request None refusing (Fields paris) empty_world))
    = socket_out empty_world ++ [("geocoding-response"%string, payload)] /\
    prop "status" payload = Some (JStr (lit "error")) /\
    prop "message" payload
    = Some (JStr (lit "Failed to communicate with geocoding service")).
Proof.
  refine (conj eq_refl (conj eq_refl (conj eq_refl _))).
  apply (upstream_failure_payload None refusing paris empty_world paris_url);
    reflexivity.
Defined.

Lemma transports_agree_on_success_witness :
  truthy (text paris) = true /\
  geocoding_url None (text paris) (k paris) = Returned paris_url /\
  Axios.get (answering_paris paris_url) = Axios.Resolved paris_result /\
  http_out (snd (post_geocode None answering_paris paris empty_world))
  = [(200, success_envelope paris_result)] /\
  socket_out
    (snd (on_geocoding_request None answering_paris (Fields paris) empty_world))
  = [("geocoding-response"%string, success_envelope paris_result)].
Proof.
  refine (conj eq_refl (conj eq_refl (conj eq_refl _))).
  destruct (transports_agree_on_success None answering_paris paris empty_world
              paris_url paris_result eq_refl eq_refl eq_refl)
    as (_ & Hhttp & Hsocket & _).
  exact (conj Hhttp Hsocket).
Defined.

(** C5, as stated, fails on a 200 reply whose body is not JSON: the body
    comes back as the [results] of a success envelope. *)
Lemma malformed_body_is_a_success :
  answering_html paris_url
  = Axios.HttpReply 200 (Axios.Malformed (lit "<html>Bad gateway</html>")) /\
  fst (handleGeocodingRequest None answering_html Paris None empty_world)
  = Returned (success_envelope (JStr (lit "<html>Bad gateway</html>"))) /\
  http_out (snd (post_geocode None answering_html paris empty_world))
  = [(200, JObj [(lit "results", JStr (lit "<html>Bad gateway</html>"));
                 (lit "status", JStr (lit "success"))])] /\
  forall error,
    fst (handleGeocodingRequest None answering_html Paris None empty_world)
    <> Threw error.
Proof.
  split; [reflexivity|]. split; [reflexivity|]. split; [reflexivity|].
  intros error. discriminate.
Qed.

Lemma upstream_asked_once_witness :
  geocoding_url None Paris None = Returned paris_url /\
  upstream_calls
    (snd (handleGeocodingRequest None refusing Paris None empty_world))
  = [(GET, paris_url)] /\
  fst (handleGeocodingRequest None refusing Paris None empty_world)
  = Threw (ErrorObject FAILED).
Proof.
  refine (conj eq_refl _).
  apply (upstream_asked_once None refusing Paris None empty_world paris_url).
  reflexivity.
Defined.

Lemma post_geocode_text_required_witness :
  (text (mkQuery (Some (JStr [])) (Some (JStr (lit "3")))) = None \/
   text (mkQuery (Some (JStr [])) (Some (JStr (lit "3")))) = Some (JStr [])) /\
  post_geocode None answering_paris
    (mkQuery (Some (JStr [])) (Some (JStr (lit "3")))) empty_world
  = (Returned tt,
     mkWorld [] [] [(400, error_envelope TEXT_REQUIRED)] []).
Proof.
  refine (conj (or_intror eq_refl) _).
  apply (post_geocode_text_required None answering_paris
           (mkQuery (Some (JStr [])) (Some (JStr (lit "3")))) empty_world).
  right. reflexivity.
Defined.

(** C8, as stated, fails when k is supplied as the empty string or as the
    number 0: the URL carries no k parameter, where appending k verbatim
    would end the URL with "&k=" or "&k=0".  It also fails for a text that
    is a lone surrogate: no URL is built and nothing is sent upstream. *)
Lemma empty_k_is_not_appended :
  geocoding_url None (text paris_with_empty_k) (k paris_with_empty_k)
  = Returned (lit "http://localhost:5008/geocoding?text=Paris") /\
  geocoding_url None (text paris_with_empty_k) (k paris_with_empty_k)
  <> Returned
       (lit "http://localhost:5008/geocoding?text=Paris" ++ lit "&k=" ++ []) /\
  geocoding_url None (text paris_with_zero_k) (k paris_with_zero_k)
  = Returned (lit "http://localhost:5008/geocoding?text=Paris") /\
  geocoding_url None (text paris_with_zero_k) (k paris_with_zero_k)
  <> Returned (lit "http://localhost:5008/geocoding?text=Paris&k=0") /\
  geocoding_url None (Some (JStr [55296])) (Some (JStr (lit "5")))
  = Threw URI_malformed /\
  upstream_calls
    (snd (handleGeocodingRequest None answering_paris (Some (JStr [55296]))
            (Some (JStr (lit "5"))) empty_world))
  = [].
Proof.
  split; [reflexivity|]. split; [discriminate|].
  split; [reflexivity|]. split; [discriminate|]. split; reflexivity.
Qed.

Lemma geocoding_url_shape_witness :
  encodeURIComponent (Some (JStr (lit "Tel Aviv")))
  = Returned (lit "Tel%20Aviv") /\
  ToString (Some (JNum (lit "5"))) = Returned (lit "5") /\
  ToString None = Returned (lit "undefined") /\
  geocoding_url None (Some (JStr (lit "Tel Aviv"))) (Some (JNum (lit "5")))
  = Returned (lit "http://localhost:5008/geocoding?text=Tel%20Aviv&k=5") /\
  geocoding_url None (Some (JStr (lit "Tel Aviv"))) None
  = Returned (lit "http://localhost:5008/geocoding?text=Tel%20Aviv").
Proof.
  refine (conj eq_refl (conj eq_refl (conj eq_refl _))).
  destruct (geocoding_url_shape None answering_paris
              (Some (JStr (lit "Tel Aviv"))) (Some (JNum (lit "5")))
              (lit "Tel%20Aviv") (lit "5") eq_refl eq_refl)
    as (url5 & -> & H5 & _).
  destruct (geocoding_url_shape None answering_paris
              (Some (JStr (lit "Tel Aviv"))) None
              (lit "Tel%20Aviv") (lit "undefined") eq_refl eq_refl)
    as (url & -> & H & _).
  exact (conj H5 H).
Defined.

(** ** Further properties of the handlers *)

Section Handlers.

Variable env : option JsString.
Variable upstream : JsString -> Axios.UpstreamBehavior.

Ltac run_handlers :=
  rewrite ?post_geocode_eq, ?on_geocoding_request_eq,
    ?handleGeocodingRequest_eq.

Ltac by_outcome q :=
  match goal with
  | |- context [geocoding_url env (text q) (k q)] =>
      destruct (geocoding_url env (text q) (k q)) as [?url|?cause];
      [match goal with
       | |- context [Axios.get (upstream ?u)] =>
           destruct (Axios.get (upstream u)) as [?data|?cause]
       end|]
  | _ => idtac
  end.

(** X1.  The socket listener does not validate [text]: where the HTTP route
    answers 400 and asks nothing, the listener asks the upstream for the
    string form of the falsy text, "undefined" when [text] is missing and
    the empty text when it is empty (unless converting k raises). *)
Theorem socket_does_not_validate_text (q : GeocodeQuery) (w : World) :
  truthy (text q) = false ->
  upstream_calls (snd (post_geocode env upstream q w)) = upstream_calls w /\
  upstream_calls (snd (on_geocoding_request env upstream (Fields q) w))
  = upstream_calls w
    ++ match k_parameter (k q) with
       | Returned parameter =>
           [(GET,
             GEOCODING_SERVICE_URL env ++ lit "/geocoding?text="
               ++ match text q with
                  | None => lit "undefined"
                  | Some JNull => lit "null"
                  | Some (JBool _) => lit "false"
                  | Some (JNum repr) => repr
                  | Some _ => []
                  end
               ++ parameter)]
       | Threw _ => []
       end.
Proof.
  intros Ht. run_handlers. rewrite Ht. split; [reflexivity|].
  destruct q as [t kq]. cbn [text k] in *.
  apply truthy_cases in Ht. unfold falsy_values in Ht. cbn [In] in Ht.
  unfold geocoding_url.
  repeat destruct Ht as [Ht|Ht]; try contradiction; subst t;
    (match goal with
     | |- context [encodeURIComponent ?v] =>
         let r := eval vm_compute in (encodeURIComponent v) in
         change (encodeURIComponent v) with r
     end);
    cbv iota beta;
    (destruct (k_parameter kq) as [parameter|error];
     [destruct (Axios.get (upstream _))|]);
    cbn; rewrite ?app_nil_r; reflexivity.
Qed.

(** X2.  No exception leaves a transport adapter, although
    [handleGeocodingRequest] throws: the route sends exactly one HTTP
    response and emits nothing, the listener emits exactly one event and
    sends no HTTP response, whatever the body and the payload. *)
Theorem adapters_never_throw (q : GeocodeQuery) (data : Payload) (w : World) :
  fst (post_geocode env upstream q w) = Returned tt /\
  fst (on_geocoding_request env upstream data w) = Returned tt /\
  socket_out (snd (post_geocode env upstream q w)) = socket_out w /\
  http_out (snd (on_geocoding_request env upstream data w)) = http_out w /\
  List.length (http_out (snd (post_geocode env upstream q w)))
  = S (List.length (http_out w)) /\
  List.length (socket_out (snd (on_geocoding_request env upstream data w)))
  = S (List.length (socket_out w)).
Proof.
  assert (Hp : fst (post_geocode env upstream q w) = Returned tt /\
               socket_out (snd (post_geocode env upstream q w)) = socket_out w /\
               List.length (http_out (snd (post_geocode env upstream q w)))
               = S (List.length (http_out w))).
  { run_handlers. destruct (truthy (text q)); by_outcome q;
      cbn; rewrite ?List.length_app; cbn; repeat split; lia. }
  assert (Ho : fst (on_geocoding_request env upstream data w) = Returned tt /\
               http_out (snd (on_geocoding_request env upstream data w))
               = http_out w /\
               List.length
                 (socket_out (snd (on_geocoding_request env upstream data w)))
               = S (List.length (socket_out w))).
  { destruct data as [| |q'];
      [cbn; rewrite List.length_app; cbn; repeat split; lia
      |cbn; rewrite List.length_app; cbn; repeat split; lia|].
    run_handlers. by_outcome q';
      cbn; rewrite ?List.length_app; cbn; repeat split; lia. }
  tauto.
Qed.

(** X3.  The status of a [POST /geocode] response is 400, 200 or 500: 400
    exactly when [text] is falsy (missing, [null], [false], [0], [NaN] or
    the empty string), 200 exactly when [text] is truthy, the URL could be
    built and the upstream call resolved, and 500 in every other case. *)
Theorem post_geocode_status_code (q : GeocodeQuery) (w : World) :
  exists code body,
    http_out (snd (post_geocode env upstream q w))
    = http_out w ++ [(code, body)] /\
    (code = 400 \/ code = 200 \/ code = 500) /\
    (code = 400 <-> truthy (text q) = false) /\
    (code = 400 <-> In (text q) falsy_values) /\
    (code = 200 <->
     truthy (text q) = true /\
     exists url data,
       geocoding_url env (text q) (k q) = Returned url /\
       Axios.get (upstream url) = Axios.Resolved data).
Proof.
  pose proof (truthy_cases (text q)) as Hf.
  run_handlers.
  destruct (truthy (text q)).
  - assert (Hn : ~ In (text q) falsy_values).
    { intros Hin. apply Hf in Hin. discriminate. }
    destruct (geocoding_url env (text q) (k q)) as [url|cause0].
    + destruct (Axios.get (upstream url)) as [data|cause] eqn:G; cbn.
      * exists 200, (success_envelope data).
        split; [reflexivity|]. split; [auto|]. split; [|split].
        -- split; intros H; discriminate.
        -- split; [intros H; discriminate|intros H; destruct (Hn H)].
        -- split; [|reflexivity]. intros _. split; [reflexivity|].
           exists url, data. auto.
      * exists 500, (error_envelope FAILED).
        split; [reflexivity|]. split; [auto|]. split; [|split].
        -- split; intros H; discriminate.
        -- split; [intros H; discriminate|intros H; destruct (Hn H)].
        -- split; [intros H; discriminate|].
           intros [_ (u & d & Hu & Hd)]. injection Hu as <-.
           rewrite G in Hd. discriminate.
    + cbn. exists 500, (error_envelope FAILED).
      split; [reflexivity|]. split; [auto|]. split; [|split].
      * split; intros H; discriminate.
      * split; [intros H; discriminate|intros H; destruct (Hn H)].
      * split; [intros H; discriminate|].
        intros [_ (u & d & Hu & _)]. discriminate.
  - cbn. exists 400, (error_envelope TEXT_REQUIRED).
    split; [reflexivity|]. split; [auto|]. split; [|split].
    + split; reflexivity.
    + split; [intros _; apply Hf; reflexivity|reflexivity].
    + split; [intros H; discriminate|]. intros [H _]. discriminate.
Qed.

(** X4.  The fallback messages "Internal server error" and "Unknown error
    occurred" of the two catch clauses are never sent, because everything
    thrown inside the two [try] blocks is an [Error].  The message of an
    HTTP response is absent, "Text query is required" or "Failed to
    communicate with geocoding service"; the message of a socket event is
    absent, "Failed to communicate with geocoding service", or the message
    of the [TypeError] raised by [data.text] when the event has no
    payload. *)
Theorem fallback_messages_are_never_sent
    (q : GeocodeQuery) (data : Payload) (w : World) :
  (exists code body,
     http_out (snd (post_geocode env upstream q w))
     = http_out w ++ [(code, body)] /\
     (prop "message" body = None \/
      prop "message" body = Some (JStr (lit "Text query is required")) \/
      prop "message" body
      = Some (JStr (lit "Failed to communicate with geocoding service"))) /\
     prop "message" body <> Some (JStr (lit "Internal server error"))) /\
  (exists payload,
     socket_out (snd (on_geocoding_request env upstream data w))
     = socket_out w ++ [("geocoding-response"%string, payload)] /\
     (prop "message" payload = None \/
      prop "message" payload
      = Some (JStr (lit "Failed to communicate with geocoding service")) \/
      (data = Undefined /\
       prop "message" payload
       = Some (JStr (lit "Cannot read properties of undefined (reading 'text')")))
      \/
      (data = Null /\
       prop "message" payload
       = Some (JStr (lit "Cannot read properties of null (reading 'text')")))) /\
     prop "message" payload <> Some (JStr (lit "Unknown error occurred"))).
Proof.
  split.
  - run_handlers.
    destruct (truthy (text q)); [by_outcome q|];
      cbn; eexists _, _; (split; [reflexivity|]);
      (split; [auto|]); intros H; vm_compute in H; discriminate.
  - destruct data as [| |q'].
    + eexists; split; [reflexivity|]. split; [auto 6|].
      intros H; vm_compute in H; discriminate.
    + eexists; split; [reflexivity|]. split; [auto 6|].
      intros H; vm_compute in H; discriminate.
    + run_handlers. by_outcome q';
        cbn; eexists; (split; [reflexivity|]);
        (split; [auto|]); intros H; vm_compute in H; discriminate.
Qed.

(** X5.  What is written with [console.error].  For a request whose [text]
    and [k] can be read: nothing when the upstream call resolves; otherwise
    [handleGeocodingRequest] logs the cause (the rejection of axios, or the
    error raised while building the URL) once, and the socket listener then
    also logs the [Error] it caught, while the HTTP route logs nothing of
    its own.  For a socket event without payload: the listener logs the
    [TypeError] raised by [data.text], and nothing else is logged or sent
    upstream. *)
Theorem console_after_a_request (q : GeocodeQuery) (w : World) :
  let cause_of :=
    match geocoding_url env (text q) (k q) with
    | Threw cause => Some cause
    | Returned url =>
        match Axios.get (upstream url) with
        | Axios.Resolved _ => None
        | Axios.Rejected cause => Some cause
        end
    end in
  console (snd (on_geocoding_request env upstream (Fields q) w))
  = console w
    ++ match cause_of with
       | None => []
       | Some cause =>
           [("Error calling geocoding service:"%string, cause);
            ("Error handling geocoding request:"%string, ErrorObject FAILED)]
       end /\
  console (snd (post_geocode env upstream q w))
  = console w
    ++ match cause_of with
       | None => []
       | Some cause =>
           if truthy (text q)
           then [("Error calling geocoding service:"%string, cause)]
           else []
       end /\
  console (snd (on_geocoding_request env upstream Undefined w))
  = console w
    ++ [("Error handling geocoding request:"%string,
         TypeError "Cannot read properties of undefined (reading 'text')")] /\
  console (snd (on_geocoding_request env upstream Null w))
  = console w
    ++ [("Error handling geocoding request:"%string,
         TypeError "Cannot read properties of null (reading 'text')")] /\
  upstream_calls (snd (on_geocoding_request env upstream Undefined w))
  = upstream_calls w /\
  upstream_calls (snd (on_geocoding_request env upstream Null w))
  = upstream_calls w.
Proof.
  cbv zeta. run_handlers.
  destruct (truthy (text q)); by_outcome q;
    cbn; rewrite <- ?app_assoc, ?app_nil_r; repeat split; reflexivity.
Qed.

(** X6.  The handlers keep no state: run from any world, a handler completes
    as it does from the empty world and appends to each record of the world
    what it appends to the empty one. *)
Theorem handlers_are_stateless
    (q : GeocodeQuery) (data : Payload) (w : World) :
  handleGeocodingRequest env upstream (text q) (k q) w
  = (fst (handleGeocodingRequest env upstream (text q) (k q) empty_world),
     world_app w
       (snd (handleGeocodingRequest env upstream (text q) (k q) empty_world)))
  /\
  post_geocode env upstream q w
  = (fst (post_geocode env upstream q empty_world),
     world_app w (snd (post_geocode env upstream q empty_world))) /\
  on_geocoding_request env upstream data w
  = (fst (on_geocoding_request env upstream data empty_world),
     world_app w (snd (on_geocoding_request env upstream data empty_world))) /\
  get_health w
  = (fst (get_health empty_world), world_app w (snd (get_health empty_world))).
Proof.
  destruct w as [calls logs http sock].
  assert (Ho : on_geocoding_request env upstream data
                 (mkWorld calls logs http sock)
               = (fst (on_geocoding_request env upstream data empty_world),
                  world_app (mkWorld calls logs http sock)
                    (snd (on_geocoding_request env upstream data empty_world)))).
  { destruct data as [| |q'];
      [cbn; unfold world_app; cbn; rewrite ?app_nil_r; reflexivity
      |cbn; unfold world_app; cbn; rewrite ?app_nil_r; reflexivity|].
    run_handlers. by_outcome q';
      cbn; unfold world_app, sent_upstream, logged, responded, emitted; cbn;
      rewrite ?app_nil_r, <- ?app_assoc; reflexivity. }
  rewrite Ho. run_handlers.
  destruct (truthy (text q)); by_outcome q;
    cbn; unfold world_app, sent_upstream, logged, responded, emitted; cbn;
    rewrite ?app_nil_r, <- ?app_assoc; cbn; repeat split; reflexivity.
Qed.

Lemma post_geocode_frame (q : GeocodeQuery) (w : World) :
  post_geocode env upstream q w
  = (Returned tt, world_app w (snd (post_geocode env upstream q empty_world)))
  /\ socket_out (snd (post_geocode env upstream q empty_world)) = [].
Proof.
  run_handlers. destruct w as [calls logs http sock].
  destruct (truthy (text q)); by_outcome q;
    cbn; unfold world_app, sent_upstream, logged, responded; cbn;
    rewrite ?app_nil_r; split; reflexivity.
Qed.

Lemma on_geocoding_request_frame (data : Payload) (w : World) :
  on_geocoding_request env upstream data w
  = (Returned tt,
     world_app w (snd (on_geocoding_request env upstream data empty_world)))
  /\ http_out (snd (on_geocoding_request env upstream data empty_world)) = [].
Proof.
  destruct w as [calls logs http sock].
  destruct data as [| |q];
    [cbn; unfold world_app; cbn; rewrite ?app_nil_r; split; reflexivity
    |cbn; unfold world_app; cbn; rewrite ?app_nil_r; split; reflexivity|].
  run_handlers. by_outcome q;
    cbn; unfold world_app, sent_upstream, logged, emitted; cbn;
    rewrite ?app_nil_r, <- ?app_assoc; split; reflexivity.
Qed.

(** X7.  Requests handled one after the other do not influence each other:
    after an HTTP request and then a socket request, the HTTP responses, the
    socket events and the upstream requests are those of each request run
    alone, in order. *)
Theorem requests_are_independent
    (q1 : GeocodeQuery) (data2 : Payload) (w : World) :
  let both :=
    snd (bind (post_geocode env upstream q1)
              (fun _ => on_geocoding_request env upstream data2) w) in
  http_out both
  = http_out w ++ http_out (snd (post_geocode env upstream q1 empty_world)) /\
  socket_out both
  = socket_out w
    ++ socket_out (snd (on_geocoding_request env upstream data2 empty_world)) /\
  upstream_calls both
  = upstream_calls w
    ++ upstream_calls (snd (post_geocode env upstream q1 empty_world))
    ++ upstream_calls
         (snd (on_geocoding_request env upstream data2 empty_world)).
Proof.
  cbv zeta. unfold bind.
  destruct (post_geocode_frame q1 w) as [Hp Hs]. rewrite Hp.
  destruct (on_geocoding_request_frame data2
              (world_app w (snd (post_geocode env upstream q1 empty_world))))
    as [Ho Hh].
  rewrite Ho. cbn [snd world_app upstream_calls http_out socket_out].
  rewrite Hh, Hs, !app_nil_r, <- app_assoc. repeat split.
Qed.

End Handlers.

(** ** Which texts can be encoded *)

Ltac bool_to_prop :=
  repeat first
    [ rewrite orb_true_iff | rewrite andb_true_iff
    | rewrite Z.leb_le | rewrite Z.ltb_lt | rewrite Z.eqb_eq ].

Lemma unescaped_is_ascii (c : Z) : unescaped c = true -> 33 <= c <= 126.
Proof.
  unfold unescaped, is_alpha, is_digit, is_mark, in_range. cbn [existsb].
  bool_to_prop. lia.
Qed.

Lemma unescaped_not_surrogate (c : Z) :
  unescaped c = true ->
  is_leading_surrogate c = false /\ is_trailing_surrogate c = false.
Proof.
  intros H. apply unescaped_is_ascii in H.
  unfold is_leading_surrogate, is_trailing_surrogate, in_range.
  split; apply andb_false_iff; left; apply Z.leb_gt; lia.
Qed.

Lemma snoc_neq {A} (l : list A) (x : A) : l ++ [x] <> l.
Proof.
  intros H. apply (f_equal (@List.length A)) in H.
  rewrite List.length_app in H. cbn in H. lia.
Qed.

Lemma option_map_none {A B} (f : A -> B) (o : option A) :
  option_map f o = None <-> o = None.
Proof. destruct o; cbn; split; intros H; try discriminate; reflexivity. Qed.

Lemma isWellFormed_cons (c : Z) (rest : JsString) :
  isWellFormed (c :: rest) =
  if is_leading_surrogate c then
    match rest with
    | d :: rest' => is_trailing_surrogate d && isWellFormed rest'
    | [] => false
    end
  else negb (is_trailing_surrogate c) && isWellFormed rest.
Proof. reflexivity. Qed.

Lemma encode_none_two (s : JsString) :
  (encode s = None <-> isWellFormed s = false) /\
  (forall c, encode (c :: s) = None <-> isWellFormed (c :: s) = false).
Proof.
  induction s as [|d rest [IH0 IH1]].
  - split; [cbn; split; discriminate|].
    intros c. rewrite encode_cons, isWellFormed_cons.
    destruct (unescaped c) eqn:U.
    + destruct (unescaped_not_surrogate _ U) as [-> ->].
      cbn. split; discriminate.
    + destruct (is_leading_surrogate c); [split; reflexivity|].
      destruct (is_trailing_surrogate c); cbn; split;
        try reflexivity; discriminate.
  - split; [apply IH1|].
    intros c. rewrite encode_cons, (isWellFormed_cons c).
    destruct (unescaped c) eqn:U.
    + destruct (unescaped_not_surrogate _ U) as [-> ->].
      rewrite option_map_none. cbn [negb andb]. apply IH1.
    + destruct (is_leading_surrogate c).
      * destruct (is_trailing_surrogate d); cbn [andb];
          [rewrite option_map_none; exact IH0|split; reflexivity].
      * destruct (is_trailing_surrogate c); cbn [negb andb];
          [split; reflexivity|rewrite option_map_none; apply IH1].
Qed.

(** [encodeURIComponent] raises exactly on the strings that are not
    well-formed UTF-16. *)
Lemma encode_none_iff (s : JsString) :
  encode s = None <-> isWellFormed s = false.
Proof. apply encode_none_two. Qed.

Lemma encode_unescaped (s : JsString) :
  forallb unescaped s = true -> encode s = Some s.
Proof.
  induction s as [|c rest IH]; [reflexivity|].
  cbn [forallb]. intros H. apply andb_true_iff in H as [Hc Hrest].
  rewrite encode_cons, Hc, (IH Hrest). reflexivity.
Qed.

Lemma isWellFormed_true_iff (s : JsString) :
  isWellFormed s = true <-> exists encoded, encode s = Some encoded.
Proof.
  pose proof (encode_none_iff s) as H.
  destruct (encode s) as [e|]; destruct (isWellFormed s); split; eauto;
    try discriminate.
  - intros _. destruct H as [_ H]. discriminate (H eq_refl).
  - destruct H as [H _]. discriminate (H eq_refl).
  - intros [e He]. discriminate.
Qed.

Section Texts.

Variable env : option JsString.
Variable upstream : JsString -> Axios.UpstreamBehavior.

Ltac run_handlers :=
  rewrite ?post_geocode_eq, ?on_geocoding_request_eq,
    ?handleGeocodingRequest_eq.

(** When the template literal of line 64 gives a URL. *)
Lemma geocoding_url_returns_iff (text k : option Json) :
  (exists url, geocoding_url env text k = Returned url) <->
  (exists s, ToString text = Returned s /\ isWellFormed s = true) /\
  (truthy k = false \/ exists value, ToString k = Returned value).
Proof.
  unfold geocoding_url, encodeURIComponent, k_parameter.
  destruct (ToString text) as [s|e].
  - pose proof (isWellFormed_true_iff s) as Hw.
    destruct (encode s) as [enc|].
    + assert (Hs : isWellFormed s = true) by (apply Hw; eauto).
      destruct (truthy k).
      * destruct (ToString k) as [value|e]; split.
        -- intros _. split; eauto.
        -- intros _. eauto.
        -- intros [url H]. discriminate.
        -- intros [_ [H|[value H]]]; discriminate.
      * split; [intros _; split; eauto|intros _; eauto].
    + split.
      * intros [url H]. discriminate.
      * intros [(s' & [= <-] & Hs) _]. apply Hw in Hs as [enc He].
        discriminate.
  - split.
    + intros [url H]. discriminate.
    + intros [(s & H & _) _]. discriminate.
Qed.

(** X8.  The upstream is asked exactly when a URL can be built, that is when
    the text converts to a string that is well-formed UTF-16 (no unpaired
    surrogate) and k, if truthy, converts to a string: then
    [handleGeocodingRequest] sends one request, and otherwise it sends
    none. *)
Theorem upstream_is_asked_iff_well_formed
    (text k : option Json) (w : World) :
  ((exists s, ToString text = Returned s /\ isWellFormed s = true) /\
   (truthy k = false \/ exists value, ToString k = Returned value) <->
   exists url,
     upstream_calls (snd (handleGeocodingRequest env upstream text k w))
     = upstream_calls w ++ [(GET, url)]) /\
  (~ ((exists s, ToString text = Returned s /\ isWellFormed s = true) /\
      (truthy k = false \/ exists value, ToString k = Returned value)) <->
   upstream_calls (snd (handleGeocodingRequest env upstream text k w))
   = upstream_calls w).
Proof.
  rewrite <- geocoding_url_returns_iff. run_handlers.
  destruct (geocoding_url env text k) as [url|cause].
  - destruct (Axios.get (upstream url)); cbn; split; split.
    + eauto.
    + intros _. eauto.
    + intros H. destruct H. eauto.
    + intros H. destruct (snoc_neq _ _ H).
    + eauto.
    + intros _. eauto.
    + intros H. destruct H. eauto.
    + intros H. destruct (snoc_neq _ _ H).
  - cbn. split; split.
    + intros [url H]. discriminate.
    + intros [url H]. symmetry in H. destruct (snoc_neq _ _ H).
    + reflexivity.
    + intros _ [url H]. discriminate.
Qed.

(** A falsy text converts to a well-formed string. *)
Lemma falsy_text_is_well_formed (text : option Json) (s : JsString) :
  truthy text = false -> ToString text = Returned s -> isWellFormed s = true.
Proof.
  intros Ht Hs. apply truthy_cases in Ht.
  unfold falsy_values in Ht. cbn [In] in Ht.
  repeat destruct Ht as [Ht|Ht]; try contradiction; subst text;
    cbn in Hs; injection Hs as <-; reflexivity.
Qed.

(** X9.  A text with an unpaired surrogate fails locally: nothing is sent
    upstream, yet the caller is told "Failed to communicate with geocoding
    service" (with status 500 on HTTP), and the [URIError] is logged. *)
Theorem ill_formed_text_fails_locally
    (q : GeocodeQuery) (s : JsString) (w : World) :
  ToString (text q) = Returned s ->
  isWellFormed s = false ->
  upstream_calls (snd (post_geocode env upstream q w)) = upstream_calls w /\
  upstream_calls (snd (on_geocoding_request env upstream (Fields q) w))
  = upstream_calls w /\
  http_out (snd (post_geocode env upstream q w))
  = http_out w ++ [(500, error_envelope FAILED)] /\
  socket_out (snd (on_geocoding_request env upstream (Fields q) w))
  = socket_out w ++ [("geocoding-response"%string, error_envelope FAILED)] /\
  console (snd (post_geocode env upstream q w))
  = console w ++ [("Error calling geocoding service:"%string, URI_malformed)].
Proof.
  intros Hs Hw.
  assert (Ht : truthy (text q) = true).
  { destruct (truthy (text q)) eqn:Ht; [reflexivity|].
    rewrite (falsy_text_is_well_formed _ _ Ht Hs) in Hw. discriminate. }
  assert (Hu : geocoding_url env (text q) (k q) = Threw URI_malformed).
  { unfold geocoding_url, encodeURIComponent. rewrite Hs.
    apply encode_none_iff in Hw. rewrite Hw. reflexivity. }
  run_handlers. rewrite Ht, Hu. repeat split.
Qed.

(** X10.  A text made only of letters, digits and the marks
    [- _ . ! ~ * ' ( )] is put in the URL as it is. *)
Theorem unescaped_text_is_sent_as_is (s : JsString) (k : option Json) :
  forallb unescaped s = true ->
  geocoding_url env (Some (JStr s)) k
  = match k_parameter k with
    | Returned parameter =>
        Returned (GEOCODING_SERVICE_URL env ++ lit "/geocoding?text=" ++ s
                    ++ parameter)
    | Threw error => Threw error
    end.
Proof.
  intros H. unfold geocoding_url, encodeURIComponent. cbn [ToString ToString_value].
  rewrite (encode_unescaped _ H). reflexivity.
Qed.

End Texts.

(** X11.  The caller never sees why the upstream call failed: whatever the
    failure (and its detail), the HTTP response and the socket event are the
    same. *)
Theorem caller_does_not_see_the_cause
    (env : option JsString)
    (upstream1 upstream2 : JsString -> Axios.UpstreamBehavior)
    (q : GeocodeQuery) (w : World) (url : JsString) :
  geocoding_url env (text q) (k q) = Returned url ->
  Axios.is_failure (upstream1 url) = true ->
  Axios.is_failure (upstream2 url) = true ->
  http_out (snd (post_geocode env upstream1 q w))
  = http_out (snd (post_geocode env upstream2 q w)) /\
  socket_out (snd (on_geocoding_request env upstream1 (Fields q) w))
  = socket_out (snd (on_geocoding_request env upstream2 (Fields q) w)) /\
  fst (handleGeocodingRequest env upstream1 (text q) (k q) w)
  = fst (handleGeocodingRequest env upstream2 (text q) (k q) w).
Proof.
  intros Hu H1 H2.
  destruct (is_failure_rejects _ H1) as [c1 Hc1].
  destruct (is_failure_rejects _ H2) as [c2 Hc2].
  rewrite !post_geocode_eq, !on_geocoding_request_eq,
    !handleGeocodingRequest_eq, Hu, Hc1, Hc2.
  destruct (truthy (text q)); repeat split.
Qed.
(** ** The encoding loses nothing *)

Lemma checked_below (f : Z -> bool) (n : nat) :
  forallb f (map Z.of_nat (seq 0 n)) = true ->
  forall x, 0 <= x < Z.of_nat n -> f x = true.
Proof.
  intros H x Hx. rewrite forallb_forall in H. apply H.
  apply in_map_iff. exists (Z.to_nat x). split; [lia|]. apply in_seq. lia.
Qed.

Lemma lor_continuation (x : Z) : 0 <= x < 64 -> Z.lor 128 x = 128 + x.
Proof.
  intros H. apply Z.eqb_eq.
  apply (checked_below (fun x => Z.lor 128 x =? 128 + x) 64);
    [reflexivity|lia].
Qed.

Lemma lor_lead2 (x : Z) : 0 <= x < 32 -> Z.lor 192 x = 192 + x.
Proof.
  intros H. apply Z.eqb_eq.
  apply (checked_below (fun x => Z.lor 192 x =? 192 + x) 32);
    [reflexivity|lia].
Qed.

Lemma lor_lead3 (x : Z) : 0 <= x < 16 -> Z.lor 224 x = 224 + x.
Proof.
  intros H. apply Z.eqb_eq.
  apply (checked_below (fun x => Z.lor 224 x =? 224 + x) 16);
    [reflexivity|lia].
Qed.

Lemma lor_lead4 (x : Z) : 0 <= x < 8 -> Z.lor 240 x = 240 + x.
Proof.
  intros H. apply Z.eqb_eq.
  apply (checked_below (fun x => Z.lor 240 x =? 240 + x) 8);
    [reflexivity|lia].
Qed.

Ltac div_lia := Z.div_mod_to_equations; lia.

(** The octets of [utf8], in arithmetic. *)
Lemma utf8_octets (cp : Z) :
  0 <= cp < 1114112 ->
  utf8 cp =
  if cp <? 128 then [cp]
  else if cp <? 2048 then [192 + cp / 64; 128 + cp mod 64]
  else if cp <? 65536 then
    [224 + cp / 4096; 128 + (cp / 64) mod 64; 128 + cp mod 64]
  else
    [240 + cp / 262144; 128 + (cp / 4096) mod 64; 128 + (cp / 64) mod 64;
     128 + cp mod 64].
Proof.
  intros H. unfold utf8.
  change 63 with (Z.ones 6).
  rewrite !Z.land_ones, !Z.shiftr_div_pow2 by lia.
  change (2 ^ 6) with 64. change (2 ^ 12) with 4096.
  change (2 ^ 18) with 262144.
  destruct (cp <? 128) eqn:E1; [reflexivity|]. apply Z.ltb_ge in E1.
  destruct (cp <? 2048) eqn:E2.
  { apply Z.ltb_lt in E2.
    rewrite lor_lead2, lor_continuation by div_lia. reflexivity. }
  apply Z.ltb_ge in E2.
  destruct (cp <? 65536) eqn:E3.
  { apply Z.ltb_lt in E3.
    rewrite lor_lead3, !lor_continuation by div_lia. reflexivity. }
  apply Z.ltb_ge in E3.
  rewrite lor_lead4, !lor_continuation by div_lia. reflexivity.
Qed.

Lemma hex_digit_inj (a b : Z) :
  0 <= a < 16 -> 0 <= b < 16 -> hex_digit a = hex_digit b -> a = b.
Proof.
  unfold hex_digit. intros Ha Hb.
  destruct (a <? 10) eqn:Ea; destruct (b <? 10) eqn:Eb;
    rewrite ?Z.ltb_lt, ?Z.ltb_ge in *; lia.
Qed.

Lemma percent_app_inj (o1 o2 : Z) (r1 r2 : JsString) :
  0 <= o1 < 256 -> 0 <= o2 < 256 ->
  percent o1 ++ r1 = percent o2 ++ r2 -> o1 = o2 /\ r1 = r2.
Proof.
  intros H1 H2. unfold percent. change 15 with (Z.ones 4).
  rewrite !Z.land_ones, !Z.shiftr_div_pow2 by lia. change (2 ^ 4) with 16.
  cbn [app]. intros H. injection H as Hhi Hlo Hr.
  apply hex_digit_inj in Hhi; [|div_lia|div_lia].
  apply hex_digit_inj in Hlo; [|div_lia|div_lia].
  split; [div_lia|exact Hr].
Qed.

(** UTF-8 is prefix-free, and so is its percent-escaped form. *)
Lemma percent_utf8_app_inj (cp1 cp2 : Z) (r1 r2 : JsString) :
  0 <= cp1 < 1114112 -> 0 <= cp2 < 1114112 ->
  percent_utf8 cp1 ++ r1 = percent_utf8 cp2 ++ r2 -> cp1 = cp2 /\ r1 = r2.
Proof.
  intros H1 H2. unfold percent_utf8. rewrite !utf8_octets by assumption.
  destruct (cp1 <? 128) eqn:A1; [|destruct (cp1 <? 2048) eqn:B1;
                                   [|destruct (cp1 <? 65536) eqn:C1]];
    (destruct (cp2 <? 128) eqn:A2; [|destruct (cp2 <? 2048) eqn:B2;
                                      [|destruct (cp2 <? 65536) eqn:C2]]);
    rewrite ?Z.ltb_lt, ?Z.ltb_ge in *;
    cbn [flat_map]; rewrite <- ?app_assoc; cbn [app]; intros H;
    repeat (apply percent_app_inj in H as [? H]; [|div_lia|div_lia]);
    try (exfalso; div_lia);
    (split; [div_lia|exact H]).
Qed.

(** What one step of [encode] consumes and writes. *)
Lemma encode_step (c : Z) (rest e : JsString) :
  0 <= c < 65536 -> code_units rest ->
  encode (c :: rest) = Some e ->
  (unescaped c = true /\ exists e', encode rest = Some e' /\ e = c :: e') \/
  (unescaped c = false /\
   exists cp units rest' e',
     c :: rest = units ++ rest' /\ code_units rest' /\
     (List.length rest' <= List.length rest)%nat /\
     encode rest' = Some e' /\ e = percent_utf8 cp ++ e' /\
     0 <= cp < 1114112 /\
     ((units = [cp] /\ cp < 65536) \/
      exists lead trail,
        units = [lead; trail] /\ 55296 <= lead <= 56319 /\
        56320 <= trail <= 57343 /\
        cp = surrogate_pair_to_code_point lead trail)).
Proof.
  intros Hc Hrest. rewrite encode_cons. intros H.
  destruct (unescaped c) eqn:U.
  - destruct (encode rest) as [e'|]; [|discriminate].
    injection H as <-. left. eauto.
  - right. split; [reflexivity|].
    destruct (is_leading_surrogate c) eqn:L.
    + destruct rest as [|d rest']; [discriminate|].
      destruct (is_trailing_surrogate d) eqn:T; [|discriminate].
      destruct (encode rest') as [e'|] eqn:E; [|discriminate].
      cbn in H. injection H as <-.
      unfold is_leading_surrogate, is_trailing_surrogate, in_range in L, T.
      apply andb_true_iff in L as [L1 L2]. apply andb_true_iff in T as [T1 T2].
      rewrite Z.leb_le in *.
      exists (surrogate_pair_to_code_point c d), [c; d], rest', e'.
      inversion Hrest; subst.
      repeat split; auto; try (cbn; lia);
        try (unfold surrogate_pair_to_code_point; lia).
      right. exists c, d. repeat split; auto.
    + destruct (is_trailing_surrogate c); [discriminate|].
      destruct (encode rest) as [e'|] eqn:E; [|discriminate].
      cbn in H. injection H as <-.
      exists c, [c], rest, e'.
      repeat split; auto; try lia. left. split; [reflexivity|lia].
Qed.

Lemma percent_utf8_head (cp : Z) :
  0 <= cp < 1114112 -> exists tail, percent_utf8 cp = 37 :: tail.
Proof.
  intros H. unfold percent_utf8. rewrite utf8_octets by assumption.
  destruct (cp <? 128); [|destruct (cp <? 2048); [|destruct (cp <? 65536)]];
    cbn; eauto.
Qed.

Lemma encode_inj_bounded (n : nat) :
  forall s1 s2 e,
    (List.length s1 <= n)%nat ->
    code_units s1 -> code_units s2 ->
    encode s1 = Some e -> encode s2 = Some e -> s1 = s2.
Proof.
  induction n as [|n IH]; intros s1 s2 e Hlen U1 U2 E1 E2.
  - destruct s1 as [|c1 r1]; [|cbn in Hlen; lia].
    cbn in E1. injection E1 as <-.
    destruct s2 as [|c2 r2]; [reflexivity|].
    apply Forall_cons_iff in U2 as [Hc2 Hr2].
    destruct (encode_step _ _ _ Hc2 Hr2 E2)
      as [(_ & e' & _ & He)
         |(_ & cp & u & r & e' & _ & _ & _ & _ & He & Hcp & _)].
    + discriminate.
    + destruct (percent_utf8_head _ Hcp) as [t Ht]. rewrite Ht in He.
      discriminate.
  - destruct s1 as [|c1 r1].
    { apply (IH [] s2 e); auto; cbn; lia. }
    destruct s2 as [|c2 r2].
    { symmetry. apply (IH [] (c1 :: r1) e); auto; cbn; lia. }
    apply Forall_cons_iff in U1 as [Hc1 Hr1].
    apply Forall_cons_iff in U2 as [Hc2 Hr2].
    cbn in Hlen.
    destruct (encode_step _ _ _ Hc1 Hr1 E1)
      as [(Ua & ea & Ea & ->)
         |(Ua & cpa & ua & ra & ea & Sa & Ura & La & Ea & -> & Hcpa & Ta)];
    destruct (encode_step _ _ _ Hc2 Hr2 E2)
      as [(Ub & eb & Eb & He)
         |(Ub & cpb & ub & rb & eb & Sb & Urb & Lb & Eb & He & Hcpb & Tb)].
    + injection He as -> ->. f_equal. apply (IH r1 r2 eb); auto; lia.
    + exfalso. destruct (percent_utf8_head _ Hcpb) as [t Ht].
      rewrite Ht in He. injection He as -> _. discriminate.
    + exfalso. destruct (percent_utf8_head _ Hcpa) as [t Ht].
      rewrite Ht in He. injection He as <- _. discriminate.
    + apply percent_utf8_app_inj in He as [-> ->]; try assumption.
      rewrite Sa, Sb.
      assert (ra = rb) by (apply (IH ra rb eb); auto; lia).
      subst rb. f_equal.
      destruct Ta as [[-> Ha]|(la & ta & -> & Hla & Hta & Hpa)];
        destruct Tb as [[Hu Hb]|(lb & tb & Hu & Hlb & Htb & Hpb)];
        rewrite Hu; try reflexivity;
        unfold surrogate_pair_to_code_point in *;
        try (exfalso; lia).
      assert (la = lb /\ ta = tb) as [-> ->] by lia. reflexivity.
Qed.

(** [encodeURIComponent] is injective: it loses nothing of the text. *)
Lemma encode_inj (s1 s2 e : JsString) :
  code_units s1 -> code_units s2 ->
  encode s1 = Some e -> encode s2 = Some e -> s1 = s2.
Proof. apply (encode_inj_bounded (List.length s1)). lia. Qed.

Lemma split_at_separator (e1 e2 p1 p2 : JsString) :
  ~ In 38 e1 -> ~ In 38 e2 ->
  (p1 = [] \/ exists t, p1 = 38 :: t) ->
  (p2 = [] \/ exists t, p2 = 38 :: t) ->
  e1 ++ p1 = e2 ++ p2 -> e1 = e2 /\ p1 = p2.
Proof.
  revert e2. induction e1 as [|a e1 IH]; intros e2 N1 N2 P1 P2 H.
  - destruct e2 as [|b e2]; [auto|]. exfalso. cbn in H.
    destruct P1 as [->|[t ->]]; [discriminate|].
    injection H as <- _. apply N2. left. reflexivity.
  - destruct e2 as [|b e2].
    + exfalso. cbn in H.
      destruct P2 as [->|[t ->]]; [discriminate|].
      injection H as -> _. apply N1. left. reflexivity.
    + cbn in H. injection H as -> H.
      destruct (IH e2) as [-> ->]; auto.
      * intros Hin. apply N1. right. exact Hin.
      * intros Hin. apply N2. right. exact Hin.
Qed.

Lemma k_parameter_shape (k : option Json) (parameter : JsString) :
  k_parameter k = Returned parameter ->
  parameter = [] \/ exists t, parameter = 38 :: t.
Proof.
  unfold k_parameter. destruct (truthy k).
  - destruct (ToString k) as [s|e]; [|discriminate].
    intros [= <-]. right. cbn. eauto.
  - intros [= <-]. left. reflexivity.
Qed.

(** X12.  Distinct queries never share an upstream URL: the URL determines
    the string form of the text, whether a k was sent, and the string form
    of that k (hence k itself when it is a string).  A missing text counts
    as the text "undefined", and a falsy k as no k. *)
Theorem upstream_url_determines_the_query
    (env : option JsString) (text1 k1 text2 k2 : option Json)
    (s1 s2 url : JsString) :
  ToString text1 = Returned s1 -> ToString text2 = Returned s2 ->
  code_units s1 -> code_units s2 ->
  geocoding_url env text1 k1 = Returned url ->
  geocoding_url env text2 k2 = Returned url ->
  s1 = s2 /\
  truthy k1 = truthy k2 /\
  (truthy k1 = true -> ToString k1 = ToString k2) /\
  (truthy k1 = true ->
   forall a b, k1 = Some (JStr a) -> k2 = Some (JStr b) -> k1 = k2).
Proof.
  intros T1 T2 U1 U2. unfold geocoding_url, encodeURIComponent.
  rewrite T1, T2.
  destruct (encode s1) as [e1|] eqn:E1; [|discriminate].
  destruct (encode s2) as [e2|] eqn:E2; [|discriminate].
  destruct (k_parameter k1) as [p1|] eqn:P1; [|discriminate].
  destruct (k_parameter k2) as [p2|] eqn:P2; [|discriminate].
  intros [= <-] [= H].
  apply (app_inv_head (GEOCODING_SERVICE_URL env)) in H.
  apply (app_inv_head (lit "/geocoding?text=")) in H.
  assert (N1 : ~ In 38 e1).
  { apply (encodeURIComponent_no_ampersand text1).
    unfold encodeURIComponent. rewrite T1, E1. reflexivity. }
  assert (N2 : ~ In 38 e2).
  { apply (encodeURIComponent_no_ampersand text2).
    unfold encodeURIComponent. rewrite T2, E2. reflexivity. }
  apply split_at_separator in H as [<- Hk];
    eauto using k_parameter_shape.
  split; [exact (encode_inj _ _ _ U1 U2 E1 E2)|].
  subst p2. unfold k_parameter in P1, P2.
  assert (Hk : truthy k1 = truthy k2 /\
               (truthy k1 = true -> ToString k1 = ToString k2)).
  { destruct (truthy k1), (truthy k2).
    - destruct (ToString k1) as [v1|]; [|discriminate].
      destruct (ToString k2) as [v2|]; [|discriminate].
      injection P1 as <-. injection P2 as ->. auto.
    - destruct (ToString k1) as [v1|]; [|discriminate].
      injection P1 as <-. discriminate.
    - destruct (ToString k2) as [v2|]; [|discriminate].
      injection P1 as <-. discriminate.
    - split; [reflexivity|discriminate]. }
  destruct Hk as [Hk1 Hk2]. repeat split; auto.
  intros Ht a b -> ->. specialize (Hk2 Ht). cbn in Hk2.
  injection Hk2 as <-. reflexivity.
Qed.

(** ** The further properties on concrete runs *)

Lemma socket_does_not_validate_text_witness :
  truthy (text no_text) = false /\
  truthy (text zero_text) = false /\
  upstream_calls (snd (post_geocode None answering_paris no_text empty_world))
  = [] /\
  upstream_calls
    (snd (on_geocoding_request None answering_paris (Fields no_text)
            empty_world))
  = [(GET, lit "http://localhost:5008/geocoding?text=undefined&k=3")] /\
  upstream_calls
    (snd (on_geocoding_request None answering_paris (Fields zero_text)
            empty_world))
  = [(GET, lit "http://localhost:5008/geocoding?text=0")].
Proof.
  refine (conj eq_refl (conj eq_refl _)).
  destruct (socket_does_not_validate_text None answering_paris no_text
              empty_world eq_refl) as [Hhttp Hsocket].
  destruct (socket_does_not_validate_text None answering_paris zero_text
              empty_world eq_refl) as [_ Hzero].
  exact (conj Hhttp (conj Hsocket Hzero)).
Defined.

Lemma ill_formed_text_fails_locally_witness :
  ToString (text lone_surrogate) = Returned [97; 55296] /\
  isWellFormed [97; 55296] = false /\
  upstream_calls
    (snd (post_geocode None answering_paris lone_surrogate empty_world))
  = [] /\
  http_out (snd (post_geocode None answering_paris lone_surrogate empty_world))
  = [(500, error_envelope FAILED)].
Proof.
  refine (conj eq_refl (conj eq_refl _)).
  destruct (ill_formed_text_fails_locally None answering_paris lone_surrogate
              [97; 55296] empty_world eq_refl eq_refl)
    as (Hcalls & _ & Hhttp & _).
  exact (conj Hcalls Hhttp).
Defined.

Lemma unescaped_text_is_sent_as_is_witness :
  forallb unescaped (lit "Paris") = true /\
  geocoding_url None (Some (JStr (lit "Paris"))) None = Returned paris_url.
Proof.
  refine (conj eq_refl _).
  exact (unescaped_text_is_sent_as_is None (lit "Paris") None eq_refl).
Defined.

Lemma caller_does_not_see_the_cause_witness :
  geocoding_url None (text paris) (k paris) = Returned paris_url /\
  Axios.is_failure (refusing paris_url) = true /\
  Axios.is_failure (answering_500 paris_url) = true /\
  http_out (snd (post_geocode None refusing paris empty_world))
  = http_out (snd (post_geocode None answering_500 paris empty_world)) /\
  socket_out
    (snd (on_geocoding_request None refusing (Fields paris) empty_world))
  = socket_out
      (snd (on_geocoding_request None answering_500 (Fields paris)
              empty_world)).
Proof.
  refine (conj eq_refl (conj eq_refl (conj eq_refl _))).
  destruct (caller_does_not_see_the_cause None refusing answering_500 paris
              empty_world paris_url eq_refl eq_refl eq_refl)
    as (Hhttp & Hsocket & _).
  exact (conj Hhttp Hsocket).
Defined.

Lemma upstream_url_determines_the_query_witness :
  ToString None = Returned (lit "undefined") /\
  ToString (Some (JStr (lit "undefined"))) = Returned (lit "undefined") /\
  code_units (lit "undefined") /\
  geocoding_url None None (Some (JNum (lit "5")))
  = Returned (lit "http://localhost:5008/geocoding?text=undefined&k=5") /\
  geocoding_url None (Some (JStr (lit "undefined"))) (Some (JStr (lit "5")))
  = Returned (lit "http://localhost:5008/geocoding?text=undefined&k=5") /\
  truthy (Some (JNum (lit "5"))) = truthy (Some (JStr (lit "5"))) /\
  ToString (Some (JNum (lit "5"))) = ToString (Some (JStr (lit "5"))).
Proof.
  assert (U : code_units (lit "undefined")).
  { repeat constructor; lia. }
  refine (conj eq_refl (conj eq_refl (conj U (conj eq_refl (conj eq_refl _))))).
  destruct (upstream_url_determines_the_query None
              None (Some (JNum (lit "5")))
              (Some (JStr (lit "undefined"))) (Some (JStr (lit "5")))
              (lit "undefined") (lit "undefined")
              (lit "http://localhost:5008/geocoding?text=undefined&k=5")
              eq_refl eq_refl U U eq_refl eq_refl)
    as (_ & Ht & Hs & _).
  exact (conj Ht (Hs eq_refl)).
Defined.
